(** * MES design-pattern snippets: decorator chain and observer registry

    Shallow embedding of
    - [behavioral_patterns/decorator_pattern/main.py]
      ([UserRole], [require_permission], [sync_to_erp], [report_production]);
    - [behavioral_patterns/observer_pattern/main.py]
      ([Status], [Observable], [Machine]). *)

From Stdlib Require Import List String ZArith Bool Lia Permutation.
Import ListNotations.
Open Scope string_scope.
Set Warnings "-register-all".

(* ================================================================= *)
(** ** Decorator pattern *)

Module Decorator.

(** Python values reaching the decorated function.  [UserRole] is an
    [IntEnum], so its members are the integers 1, 2 and 3. *)
Inductive PyVal :=
| PNone
| PInt (z : Z)
| PStr (s : string)
| PDict (kv : list (string * PyVal)).

Inductive UserRole := GUEST | OPERATOR | ADMIN.

Definition role_val (r : UserRole) : Z :=
  match r with GUEST => 1 | OPERATOR => 2 | ADMIN => 3 end.

Definition role (r : UserRole) : PyVal := PInt (role_val r).

(** Exceptions the snippet can raise. *)
Inductive PyExc := TypeError | KeyError.

(** Observable effects: the [print] calls of the snippet.  The ERP
    synchronisation is the pair of prints in [sync_to_erp]; the wall-clock
    value printed by the second one is not modelled. *)
Inductive Event :=
| EvDenied (user_role : PyVal) (fname : string)   (* line 18 *)
| EvErpSync (order_id : PyVal)                     (* line 31 *)
| EvErpTime                                        (* line 32 *)
| EvReport (order_id quantity : PyVal).            (* line 42 *)

(** A state (event log) and exception monad. *)
Definition PyM (A : Type) := list Event -> (PyExc + A) * list Event.

Definition ret {A} (a : A) : PyM A := fun log => (inr a, log).
Definition raise {A} (e : PyExc) : PyM A := fun log => (inl e, log).
Definition bind {A B} (m : PyM A) (k : A -> PyM B) : PyM B :=
  fun log => match m log with
             | (inl e, log') => (inl e, log')
             | (inr a, log') => k a log'
             end.
Definition emit (e : Event) : PyM unit := fun log => (inr tt, app log [e]).

Notation "x <- m ;; k" := (bind m (fun x => k))
  (at level 61, m at next level, right associativity).
Notation "m ;;; k" := (bind m (fun _ => k))
  (at level 61, right associativity).

Definition Kwargs := list (string * PyVal).

(** A Python callable [f( *args, **kwargs)] with its [__name__]
    ([functools.wraps] copies the name onto the wrapper). *)
Record PyFunc := mkFunc {
  fname : string;
  fcall : list PyVal -> Kwargs -> PyM PyVal
}.

(** [dict.get(k, default)] and [dict[k]]. *)
Fixpoint lookup (k : string) (d : list (string * PyVal)) : option PyVal :=
  match d with
  | [] => None
  | (k', v) :: d' => if String.eqb k k' then Some v else lookup k d'
  end.

Definition dict_get (d : list (string * PyVal)) (k : string) (dflt : PyVal) : PyVal :=
  match lookup k d with Some v => v | None => dflt end.

Definition getitem (v : PyVal) (k : string) : PyM PyVal :=
  match v with
  | PDict d => match lookup k d with Some x => ret x | None => raise KeyError end
  | _ => raise TypeError
  end.

(** Python [a <= b]: integers (and [IntEnum] members) numerically, strings
    lexicographically, any other pair raises [TypeError]. *)
Definition py_le (a b : PyVal) : PyM bool :=
  match a, b with
  | PInt x, PInt y => ret (Z.leb x y)
  | PStr x, PStr y => ret (String.leb x y)
  | _, _ => raise TypeError
  end.

(** Python truthiness ([if result:]). *)
Definition truthy (v : PyVal) : bool :=
  match v with
  | PNone => false
  | PInt z => negb (Z.eqb z 0)
  | PStr s => negb (String.eqb s "")
  | PDict kv => negb (Nat.eqb (List.length kv) 0)
  end.

(** [require_permission(role)(func)] (lines 12-22). *)
Definition require_permission (r : PyVal) (func : PyFunc) : PyFunc :=
  mkFunc (fname func) (fun args kwargs =>
    let user_role := dict_get kwargs "user_role" (PStr "Guest") in
    b <- py_le user_role r ;;
    if b then
      emit (EvDenied user_role (fname func)) ;;;
      ret PNone
    else fcall func args kwargs).

(** [sync_to_erp(func)] (lines 25-34). *)
Definition sync_to_erp (func : PyFunc) : PyFunc :=
  mkFunc (fname func) (fun args kwargs =>
    result <- fcall func args kwargs ;;
    (if truthy result then
       oid <- getitem result "order_id" ;;
       emit (EvErpSync oid) ;;;
       emit EvErpTime
     else ret tt) ;;;
    ret result).

(** Python's binding of [*args, **kwargs] to the parameter list
    [(order_id, quantity, user_role)]: positional first, then keywords;
    a parameter given twice, an unknown keyword, too many positional
    arguments or a missing parameter raise [TypeError]. *)
Fixpoint bind_params (params : list string) (args : list PyVal) (kwargs : Kwargs)
  : option (list PyVal) :=
  match params with
  | [] => match args with [] => Some [] | _ :: _ => None end
  | p :: ps =>
      match args with
      | a :: args' =>
          match lookup p kwargs with
          | Some _ => None
          | None => option_map (cons a) (bind_params ps args' kwargs)
          end
      | [] =>
          match lookup p kwargs with
          | Some v => option_map (cons v) (bind_params ps [] kwargs)
          | None => None
          end
      end
  end.

Definition report_params := ["order_id"; "quantity"; "user_role"].

Definition known_kwargs (kwargs : Kwargs) : bool :=
  forallb (fun kv => existsb (String.eqb (fst kv)) report_params) kwargs.

(** Undecorated body of [report_production] (lines 38-43). *)
Definition report_production_body : PyFunc :=
  mkFunc "report_production" (fun args kwargs =>
    if negb (known_kwargs kwargs) then raise TypeError else
    match bind_params report_params args kwargs with
    | Some [order_id; quantity; _user_role] =>
        emit (EvReport order_id quantity) ;;;
        ret (PDict [("order_id", order_id); ("status", PStr "completed")])
    | _ => raise TypeError
    end).

(** The decorated [report_production]: the decorator listed first is the
    outermost one. *)
Definition report_production : PyFunc :=
  require_permission (role OPERATOR) (sync_to_erp report_production_body).

(** Counting terminal executions and ERP synchronisations in a log. *)
Definition is_report (e : Event) : bool :=
  match e with EvReport _ _ => true | _ => false end.
Definition is_sync (e : Event) : bool :=
  match e with EvErpSync _ => true | _ => false end.
Definition terminal_runs (log : list Event) : nat := List.length (filter is_report log).
Definition sync_calls (log : list Event) : nat := List.length (filter is_sync log).

(** The record [report_production] returns. *)
Definition completed (order_id : PyVal) : PyVal :=
  PDict [("order_id", order_id); ("status", PStr "completed")].

(** The record returned by the terminal of the spec's example, keyed
    [orderId]. *)
Definition orderId_terminal : PyFunc :=
  mkFunc "report_production" (fun _ _ =>
    ret (PDict [("orderId", PStr "ORD-002"); ("status", PStr "completed")])).

End Decorator.

(* ================================================================= *)
(** ** Observer pattern *)

Module ObserverPattern.

Open Scope list_scope.

Inductive Status := IDLE | RUNNING | FAULT.

(** An observer object, by identity ([list.__contains__] and [list.remove]
    compare observers with [==], which is identity for these classes). *)
Definition Obs := nat.

(** Arguments of [register_observer]/[remove_observer]: an instance of
    [Observer], or any other Python object. *)
Inductive Arg := AObserver (o : Obs) | AOther.

(** [Machine] (the [Observable] dataclass with its [Machine] fields). *)
Record Machine := mkMachine {
  machine_id : string;
  _status : Status;
  _observers : list Obs
}.

Definition with_observers (m : Machine) (os : list Obs) : Machine :=
  mkMachine (machine_id m) (_status m) os.
Definition with_status (m : Machine) (s : Status) : Machine :=
  mkMachine (machine_id m) s (_observers m).

(** [Observable.register_observer] (lines 33-37). *)
Definition register_observer (a : Arg) (m : Machine) : bool * Machine :=
  match a with
  | AObserver o => (true, with_observers m (_observers m ++ [o]))
  | AOther => (false, m)
  end.

(** [list.remove]: drop the first occurrence. *)
Fixpoint list_remove (o : Obs) (l : list Obs) : list Obs :=
  match l with
  | [] => []
  | x :: l' => if Nat.eqb x o then l' else x :: list_remove o l'
  end.

(** [Observable.remove_observer] (lines 39-43). *)
Definition remove_observer (a : Arg) (m : Machine) : bool * Machine :=
  match a with
  | AObserver o =>
      if existsb (Nat.eqb o) (_observers m)
      then (true, with_observers m (list_remove o (_observers m)))
      else (false, m)
  | AOther => (false, m)
  end.

(** What an [update] call does.  An observer holds whatever references it
    likes, so it may mutate the machine it is notified by (for instance
    register or remove observers), and it may raise. *)
Inductive UpdResult :=
| UOk (m' : Machine)
| URaise (m' : Machine).

(** One [observer.update(self.machine_id, self._status)] call as it was
    made: the receiver, its two arguments and the machine at that time. *)
Record Delivery := mkDelivery {
  d_obs : Obs;
  d_mid : string;
  d_status : Status;
  d_seen : Machine
}.

(** Outcome of a broadcast: finished, an exception escaping the loop, or
    the fuel exhausted (the live list may grow without bound). *)
Inductive Outcome :=
| Done (m : Machine) (log : list Delivery)
| Raised (m : Machine) (log : list Delivery)
| OutOfFuel (m : Machine) (log : list Delivery).

Section Notify.

(** The [update] method of every observer object. *)
Variable update : Obs -> string -> Status -> Machine -> UpdResult.

(** [Machine.notify_observers] (lines 67-70).  A Python [for] loop over a
    list reads the live list by position: at step [i] it stops when [i] is
    past the current end, and otherwise takes the current [i]-th element.
    The attributes [self.machine_id] and [self._status] are read afresh at
    each call. *)
Fixpoint notify_from (fuel i : nat) (m : Machine) (log : list Delivery) : Outcome :=
  match fuel with
  | O => OutOfFuel m log
  | S fuel' =>
      match nth_error (_observers m) i with
      | None => Done m log
      | Some o =>
          let log' := log ++ [mkDelivery o (machine_id m) (_status m) m] in
          match update o (machine_id m) (_status m) m with
          | UOk m' => notify_from fuel' (S i) m' log'
          | URaise m' => Raised m' log'
          end
      end
  end.

Definition notify_observers (fuel : nat) (m : Machine) (log : list Delivery) : Outcome :=
  notify_from fuel 0 m log.

(** [Machine.set_status] (lines 72-76); the [print] is not modelled. *)
Definition set_status (fuel : nat) (s : Status) (m : Machine) (log : list Delivery)
  : Outcome :=
  notify_observers fuel (with_status m s) log.

(** Two calls in sequence; an exception from the first skips the second. *)
Definition set_status_twice (fuel : nat) (s1 s2 : Status) (m : Machine) : Outcome :=
  match set_status fuel s1 m [] with
  | Done m1 log1 => set_status fuel s2 m1 log1
  | o => o
  end.

End Notify.

(** The concrete observers of the snippet only print. *)
Definition MaintenanceEngineer_update (o : Obs) (mid : string) (s : Status)
  (m : Machine) : UpdResult := UOk m.
Definition ProductionDashboard_update (o : Obs) (mid : string) (s : Status)
  (m : Machine) : UpdResult := UOk m.

Definition deliveries_to (o : Obs) (log : list Delivery) : nat :=
  count_occ Nat.eq_dec (map d_obs log) o.

Definition outcome_log (r : Outcome) : list Delivery :=
  match r with Done _ l | Raised _ l | OutOfFuel _ l => l end.

(** A machine of the simulation with the given observers. *)
Definition cnc (os : list Obs) : Machine := mkMachine "CNC-001" IDLE os.

(** Example observers whose [update] misbehaves: observer [bad] raises;
    observer [leaver] unsubscribes itself; observer [recruiter] subscribes
    [newcomer]; every other observer only prints. *)
Definition faulty_update (bad : Obs) (o : Obs) (mid : string) (s : Status)
  (m : Machine) : UpdResult :=
  if Nat.eqb o bad then URaise m else UOk m.

(** The object an observer (un)subscribes to: an [Observable] (here a
    [Machine]) or any other Python object. *)
Inductive Target := TObservable (m : Machine) | TOtherObj.

(** [Observer.subscribe] (lines 16-20): the result of [register_observer]
    is discarded. *)
Definition subscribe (self : Obs) (t : Target) : bool * Target :=
  match t with
  | TObservable m => (true, TObservable (snd (register_observer (AObserver self) m)))
  | TOtherObj => (false, t)
  end.

(** [Observer.unsubscribe] (lines 22-26): the result of [remove_observer]
    is discarded. *)
Definition unsubscribe (self : Obs) (t : Target) : bool * Target :=
  match t with
  | TObservable m => (true, TObservable (snd (remove_observer (AObserver self) m)))
  | TOtherObj => (false, t)
  end.

(** The lines printed by the simulation: [set_status]'s system message
    (line 74) and the two concrete observers' messages (lines 54, 59). *)
Inductive Line :=
| SystemLine (mid : string) (s : Status)
| EngineerAlert (mid : string)
| DashboardLine (mid : string) (s : Status).

Inductive ObserverKind := MaintenanceEngineer | ProductionDashboard.

Definition status_eqb (a b : Status) : bool :=
  match a, b with
  | IDLE, IDLE | RUNNING, RUNNING | FAULT, FAULT => true
  | _, _ => false
  end.

(** [MaintenanceEngineer.update] (lines 52-54) prints on [FAULT] only;
    [ProductionDashboard.update] (lines 58-59) prints on every call. *)
Definition update_prints (k : ObserverKind) (mid : string) (s : Status) : list Line :=
  match k with
  | MaintenanceEngineer => if status_eqb s FAULT then [EngineerAlert mid] else []
  | ProductionDashboard => [DashboardLine mid s]
  end.

Definition concrete_update (kind : Obs -> ObserverKind) (o : Obs) (mid : string)
  (s : Status) (m : Machine) : UpdResult :=
  match kind o with
  | MaintenanceEngineer => MaintenanceEngineer_update o mid s m
  | ProductionDashboard => ProductionDashboard_update o mid s m
  end.

(** What [set_status] prints when the registered observers are the
    concrete ones: its own message, then each [update]'s lines in call
    order. *)
Definition set_status_output (kind : Obs -> ObserverKind) (fuel : nat) (s : Status)
  (m : Machine) : list Line :=
  SystemLine (machine_id m) s ::
  flat_map (fun d => update_prints (kind (d_obs d)) (d_mid d) (d_status d))
    (outcome_log (set_status (concrete_update kind) fuel s m [])).

Definition is_alert (l : Line) : bool :=
  match l with EngineerAlert _ => true | _ => false end.

Definition is_engineer (k : ObserverKind) : bool :=
  match k with MaintenanceEngineer => true | ProductionDashboard => false end.

(** The registered observers of a subscription target. *)
Definition target_observers (t : Target) : list Obs :=
  match t with TObservable m => _observers m | TOtherObj => [] end.

End ObserverPattern.

(* ================================================================= *)
(** ** Facts about the decorator chain *)

Module DecoratorFacts.

Import Decorator.
Open Scope list_scope.

Lemma bind_ret {A B} (a : A) (k : A -> PyM B) log : bind (ret a) k log = k a log.
Proof. reflexivity. Qed.

Lemma bind_inr {A B} (m : PyM A) (k : A -> PyM B) log a log' :
  m log = (inr a, log') -> bind m k log = k a log'.
Proof. intros H. unfold bind. rewrite H. reflexivity. Qed.

Lemma emit_app e log : emit e log = (inr tt, log ++ [e]).
Proof. reflexivity. Qed.

Lemma dict_get_cons_user_role v kw d :
  dict_get (("user_role", v) :: kw) "user_role" d = v.
Proof. reflexivity. Qed.

(** The guard with a supplied integer role: the guard itself never raises;
    a value [<= r] is denied, with only the denial printed, and any other
    value runs the wrapped function. *)
Lemma require_permission_int z r func args kwargs log :
  lookup "user_role" kwargs = Some (PInt z) ->
  fcall (require_permission (PInt r) func) args kwargs log =
  if Z.leb z r then (inr PNone, log ++ [EvDenied (PInt z) (fname func)])
  else fcall func args kwargs log.
Proof.
  intros Hl. cbn [fcall require_permission]. unfold dict_get. rewrite Hl.
  cbn. destruct (Z.leb z r); reflexivity.
Qed.

(** The guard with a supplied or defaulted value that is not an integer:
    the comparison with the integer enumeration raises [TypeError]. *)
Lemma require_permission_not_int r func args kwargs log :
  (forall z, dict_get kwargs "user_role" (PStr "Guest") <> PInt z) ->
  fcall (require_permission (PInt r) func) args kwargs log = (inl TypeError, log).
Proof.
  intros Hn. cbn [fcall require_permission].
  destruct (dict_get kwargs "user_role" (PStr "Guest")) eqn:E;
    [reflexivity | exfalso; eapply Hn; reflexivity | reflexivity | reflexivity].
Qed.

(** [report_production(order_id, quantity, user_role=r)] for each role. *)
Lemma report_production_call oid q r log :
  fcall report_production [oid; q] [("user_role", role r)] log =
  match r with
  | ADMIN => (inr (completed oid), log ++ [EvReport oid q; EvErpSync oid; EvErpTime])
  | _ => (inr PNone, log ++ [EvDenied (role r) "report_production"])
  end.
Proof.
  destruct r; cbn; try reflexivity.
  rewrite <- !app_assoc. reflexivity.
Qed.

(** Every call of the decorated [report_production] prints nothing, only
    the denial, or the report followed by one ERP synchronisation; the last
    case needs an integer [user_role] keyword above [OPERATOR]. *)
Lemma report_production_events args kwargs :
  snd (fcall report_production args kwargs []) = [] \/
  (exists v, snd (fcall report_production args kwargs []) =
             [EvDenied v "report_production"]) \/
  (exists z a b, lookup "user_role" kwargs = Some (PInt z) /\ (2 < z)%Z /\
     snd (fcall report_production args kwargs []) = [EvReport a b; EvErpSync a; EvErpTime]).
Proof.
  cbn [fcall report_production require_permission sync_to_erp].
  unfold dict_get. destruct (lookup "user_role" kwargs) as [v|] eqn:Hl;
    [|left; reflexivity].
  destruct v as [|z| |]; try (left; reflexivity).
  cbn [py_le role role_val]. destruct (Z.leb z 2) eqn:Hz.
  - right; left. eexists. reflexivity.
  - unfold report_production_body; cbn [fname fcall].
    destruct (known_kwargs kwargs); [|left; reflexivity].
    destruct (bind_params report_params args kwargs) as [[|a [|b [|c [|d l]]]]|];
      try (left; reflexivity).
    right; right. exists z, a, b. apply Z.leb_gt in Hz.
    split; [reflexivity | split; [lia | reflexivity]].
Qed.

Lemma terminal_runs_app l1 l2 : terminal_runs (l1 ++ l2) = terminal_runs l1 + terminal_runs l2.
Proof. unfold terminal_runs. rewrite filter_app, length_app. reflexivity. Qed.

Lemma sync_calls_app l1 l2 : sync_calls (l1 ++ l2) = sync_calls l1 + sync_calls l2.
Proof. unfold sync_calls. rewrite filter_app, length_app. reflexivity. Qed.

(** C1: for every caller role and required role of [UserRole], the guard
    runs the wrapped function exactly when [callerRole > requiredRole]
    (strictly) and otherwise returns [None] after printing the denial; with
    [requiredRole = OPERATOR], [report_production] denies [GUEST] and
    [OPERATOR] and gives [ADMIN] the completed record. *)
Theorem C1_authorize_strictly_greater :
  (forall (caller required : UserRole) func args kw log,
     fcall (require_permission (role required) func) args
           (("user_role", role caller) :: kw) log =
     if Z.ltb (role_val required) (role_val caller)
     then fcall func args (("user_role", role caller) :: kw) log
     else (inr PNone, log ++ [EvDenied (role caller) (fname func)])) /\
  (forall oid q log,
     fst (fcall report_production [oid; q] [("user_role", role GUEST)] log) = inr PNone /\
     fst (fcall report_production [oid; q] [("user_role", role OPERATOR)] log) = inr PNone /\
     fst (fcall report_production [oid; q] [("user_role", role ADMIN)] log)
       = inr (completed oid)).
Proof.
  split.
  - intros caller required func args kw log.
    destruct caller, required; reflexivity.
  - intros oid q log. rewrite !report_production_call. repeat split.
Qed.

(** C5: in the chain [require_permission(OPERATOR)] around [sync_to_erp]
    around the report, a [GUEST] call returns [None] with no report and no
    ERP synchronisation, an [ADMIN] call returns the completed record with
    exactly one report and one synchronisation; and on every call the
    report runs at most once, and only when an integer [user_role] above
    [OPERATOR] passed the guard. *)
Theorem C5_report_chain_gating :
  (forall oid q,
     fst (fcall report_production [oid; q] [("user_role", role GUEST)] []) = inr PNone /\
     terminal_runs (snd (fcall report_production [oid; q] [("user_role", role GUEST)] [])) = 0 /\
     sync_calls (snd (fcall report_production [oid; q] [("user_role", role GUEST)] [])) = 0) /\
  (forall oid q,
     fst (fcall report_production [oid; q] [("user_role", role ADMIN)] []) = inr (completed oid) /\
     terminal_runs (snd (fcall report_production [oid; q] [("user_role", role ADMIN)] [])) = 1 /\
     sync_calls (snd (fcall report_production [oid; q] [("user_role", role ADMIN)] [])) = 1) /\
  (forall args kwargs,
     terminal_runs (snd (fcall report_production args kwargs [])) <= 1 /\
     (terminal_runs (snd (fcall report_production args kwargs [])) = 1 ->
      exists z, lookup "user_role" kwargs = Some (PInt z) /\ (role_val OPERATOR < z)%Z)).
Proof.
  split; [|split].
  - intros oid q. rewrite !report_production_call. repeat split.
  - intros oid q. rewrite !report_production_call. repeat split.
  - intros args kwargs.
    destruct (report_production_events args kwargs) as [E | [[v E] | [z [a [b [Hl [Hz E]]]]]]];
      rewrite E; cbn.
    + split; [lia | discriminate].
    + split; [lia | discriminate].
    + split; [lia | intros _; exists z; split; [exact Hl | exact Hz]].
Qed.

Lemma C5_report_chain_gating_witness :
  terminal_runs (snd (fcall report_production [PStr "ORD-002"; PInt 500]
                   [("user_role", role ADMIN)] [])) = 1 /\
  exists z, lookup "user_role" [("user_role", role ADMIN)] = Some (PInt z) /\
            (role_val OPERATOR < z)%Z.
Proof.
  split; [reflexivity|].
  apply (proj2 (proj2 (proj2 C5_report_chain_gating) [PStr "ORD-002"; PInt 500]
                             [("user_role", role ADMIN)])).
  reflexivity.
Defined.

(** C6 (counterexample): a terminal returning the populated record
    [{"orderId": "ORD-002", "status": "completed"}] does not get its result
    returned unchanged: [sync_to_erp] reads [result['order_id']] and the
    call raises [KeyError], with no synchronisation. *)
Lemma C6_sync_orderId_record_raises :
  fcall orderId_terminal [] [] [] =
    (inr (PDict [("orderId", PStr "ORD-002"); ("status", PStr "completed")]), []) /\
  fcall (sync_to_erp orderId_terminal) [] [] [] = (inl KeyError, []).
Proof. split; reflexivity. Qed.

(** C6 (amended): [sync_to_erp] calls the wrapped function once and, when
    it returns [r]:
    - a falsy [r] ([None], an empty dict, [0], [""]) is returned unchanged
      with no synchronisation;
    - a dict [r] with an [order_id] entry is returned unchanged after
      exactly one synchronisation with that order id;
    - any other truthy [r] makes the synchronisation step raise
      ([KeyError] for a dict, [TypeError] otherwise), with no
      synchronisation and no result returned. *)
Theorem C6_sync_to_erp_result func args kwargs log r log' :
  fcall func args kwargs log = (inr r, log') ->
  (truthy r = false ->
     fcall (sync_to_erp func) args kwargs log = (inr r, log')) /\
  (forall d oid, r = PDict d -> lookup "order_id" d = Some oid ->
     fcall (sync_to_erp func) args kwargs log
       = (inr r, log' ++ [EvErpSync oid; EvErpTime])) /\
  (truthy r = true ->
     (forall d, r = PDict d -> lookup "order_id" d = None) ->
     fcall (sync_to_erp func) args kwargs log =
       (inl (match r with PDict _ => KeyError | _ => TypeError end), log')).
Proof.
  intros Hf. cbn [fcall sync_to_erp]. rewrite (bind_inr _ _ _ _ _ Hf).
  split; [|split].
  - intros Ht. rewrite Ht. reflexivity.
  - intros d oid -> Hl.
    assert (Ht : truthy (PDict d) = true).
    { destruct d; [discriminate | reflexivity]. }
    rewrite Ht. cbn. rewrite Hl. cbn. rewrite <- app_assoc. reflexivity.
  - intros Ht Hn. rewrite Ht.
    destruct r as [| | |d]; cbn; try reflexivity.
    rewrite (Hn d eq_refl). reflexivity.
Qed.

Lemma C6_sync_to_erp_result_witness :
  fcall (sync_to_erp report_production_body) [PStr "ORD-002"; PInt 500]
        [("user_role", role ADMIN)] []
  = (inr (completed (PStr "ORD-002")),
     [EvReport (PStr "ORD-002") (PInt 500)] ++ [EvErpSync (PStr "ORD-002"); EvErpTime]).
Proof.
  refine (proj1 (proj2 (C6_sync_to_erp_result report_production_body
    [PStr "ORD-002"; PInt 500] [("user_role", role ADMIN)] []
    (completed (PStr "ORD-002")) [EvReport (PStr "ORD-002") (PInt 500)] _))
    _ (PStr "ORD-002") eq_refl _); reflexivity.
Defined.

(** C8 (counterexample): the denial of a [GUEST] call is the value [None];
    the human-readable reason is only printed, not carried by the result. *)
Lemma C8_denial_is_None :
  fcall report_production [PStr "ORD-001"; PInt 100] [("user_role", role GUEST)] []
  = (inr PNone, [EvDenied (PInt 1) "report_production"]) /\
  forall reason, fst (fcall report_production [PStr "ORD-001"; PInt 100]
                        [("user_role", role GUEST)] []) <> inr (PStr reason).
Proof. split; [reflexivity | intros reason; discriminate]. Qed.

(** C8 (amended): when [require_permission] denies (the role value
    compares [<=] the required role), it returns [None] as a normal value,
    not an exception; the reason is printed, and the wrapped function, hence
    every inner stage and the terminal, is not called: the only effect is
    the denial print. *)
Theorem C8_denial_skips_inner r func args kwargs log :
  py_le (dict_get kwargs "user_role" (PStr "Guest")) r log = (inr true, log) ->
  fcall (require_permission r func) args kwargs log =
    (inr PNone, log ++ [EvDenied (dict_get kwargs "user_role" (PStr "Guest")) (fname func)]).
Proof.
  intros Hle. cbn [fcall require_permission]. rewrite (bind_inr _ _ _ _ _ Hle).
  reflexivity.
Qed.

Lemma C8_denial_skips_inner_witness :
  fcall report_production [PStr "ORD-001"; PInt 100] [("user_role", role OPERATOR)] []
  = (inr PNone, [] ++ [EvDenied (role OPERATOR) "report_production"]).
Proof.
  apply (C8_denial_skips_inner (role OPERATOR) (sync_to_erp report_production_body)
           [PStr "ORD-001"; PInt 100] [("user_role", role OPERATOR)] []).
  reflexivity.
Defined.

(** C10: called without a [user_role] keyword, the guard compares the
    default string ["Guest"] with an integer [UserRole] and raises
    [TypeError], with no effect; so does any supplied value that is not an
    integer; a denial ([None]) comes only from an integer role [<=] the
    required one. *)
Theorem C10_missing_user_role_type_error (rr : UserRole) func args kwargs log :
  (lookup "user_role" kwargs = None ->
     fcall (require_permission (role rr) func) args kwargs log = (inl TypeError, log)) /\
  (forall v, lookup "user_role" kwargs = Some v -> (forall z, v <> PInt z) ->
     fcall (require_permission (role rr) func) args kwargs log = (inl TypeError, log)) /\
  (forall z, lookup "user_role" kwargs = Some (PInt z) ->
     fcall (require_permission (role rr) func) args kwargs log =
       if Z.leb z (role_val rr)
       then (inr PNone, log ++ [EvDenied (PInt z) (fname func)])
       else fcall func args kwargs log).
Proof.
  split; [|split].
  - intros Hl. apply require_permission_not_int.
    unfold dict_get. rewrite Hl. discriminate.
  - intros v Hl Hv. apply require_permission_not_int.
    unfold dict_get. rewrite Hl. exact Hv.
  - intros z Hl. apply require_permission_int. exact Hl.
Qed.

Lemma C10_missing_user_role_type_error_witness :
  fcall report_production [PStr "ORD-002"; PInt 500; role ADMIN] [] []
  = (inl TypeError, []).
Proof.
  apply (proj1 (C10_missing_user_role_type_error OPERATOR
                  (sync_to_erp report_production_body)
                  [PStr "ORD-002"; PInt 500; role ADMIN] [] [])).
  reflexivity.
Defined.

End DecoratorFacts.

(* ================================================================= *)
(** ** Facts about the observer registry *)

Module ObserverFacts.

Import ObserverPattern.
Close Scope string_scope.
Open Scope list_scope.

(** The delivery made to [o] by machine [m]. *)
Definition deliv (m : Machine) (o : Obs) : Delivery :=
  mkDelivery o (machine_id m) (_status m) m.

Section Loop.

Variable update : Obs -> string -> Status -> Machine -> UpdResult.

(** An observer whose [update] neither touches the machine nor raises,
    like [MaintenanceEngineer] and [ProductionDashboard]. *)
Definition quiet (o : Obs) : Prop := forall mid st mm, update o mid st mm = UOk mm.

(** An observer whose [update] raises. *)
Definition raises (o : Obs) : Prop := forall mid st mm, update o mid st mm = URaise mm.

Lemma skipn_cons_nth {A} (l : list A) i x r :
  skipn i l = x :: r -> nth_error l i = Some x /\ skipn (S i) l = r.
Proof.
  revert i. induction l as [|y l IH]; intros [|i] H; cbn in *; try discriminate.
  - injection H as -> ->. split; reflexivity.
  - exact (IH i H).
Qed.

Lemma skipn_nil_nth {A} (l : list A) i : skipn i l = [] -> nth_error l i = None.
Proof.
  revert i. induction l as [|y l IH]; intros [|i] H; cbn in *; try discriminate;
    [reflexivity | reflexivity | exact (IH i H)].
Qed.

(** Quiet observers at the current position are notified one by one. *)
Lemma notify_skip fuel i m log pre rest :
  skipn i (_observers m) = pre ++ rest -> Forall quiet pre ->
  notify_from update (List.length pre + fuel) i m log =
  notify_from update fuel (i + List.length pre) m (log ++ map (deliv m) pre).
Proof.
  revert i log. induction pre as [|p pre IH]; intros i log Hs Hq.
  - cbn. rewrite Nat.add_0_r, app_nil_r. reflexivity.
  - inversion Hq as [|? ? Hp Hq']; subst.
    destruct (skipn_cons_nth _ _ _ _ Hs) as [Hn Hs'].
    cbn [List.length Nat.add notify_from]. rewrite Hn, Hp.
    rewrite (IH (S i) _ Hs' Hq').
    replace (S i + List.length pre) with (i + S (List.length pre)) by lia.
    rewrite <- app_assoc. reflexivity.
Qed.

Lemma notify_end fuel i m log :
  skipn i (_observers m) = [] -> notify_from update (S fuel) i m log = Done m log.
Proof. intros Hs. cbn. rewrite (skipn_nil_nth _ _ Hs). reflexivity. Qed.

Lemma skipn_length_self {A} (l : list A) : skipn (List.length l) l = [].
Proof. induction l; cbn; auto. Qed.

(** With only quiet observers and enough fuel, one broadcast notifies the
    registered list in order. *)
Lemma notify_all_quiet fuel m log :
  Forall quiet (_observers m) -> List.length (_observers m) < fuel ->
  notify_from update fuel 0 m log = Done m (log ++ map (deliv m) (_observers m)).
Proof.
  intros Hq Hf.
  replace fuel with (List.length (_observers m) + S (fuel - S (List.length (_observers m)))) by lia.
  rewrite (notify_skip _ 0 m log (_observers m) [] (eq_sym (app_nil_r _)) Hq).
  apply notify_end. apply skipn_length_self.
Qed.

End Loop.

Lemma skipn_length_app {A} (pre l : list A) : skipn (List.length pre) (pre ++ l) = l.
Proof. induction pre; cbn; auto. Qed.

Lemma map_d_obs_deliv m l : map d_obs (map (deliv m) l) = l.
Proof. induction l; cbn; f_equal; auto. Qed.

Lemma list_remove_first o pre post :
  ~ In o pre -> list_remove o (pre ++ o :: post) = pre ++ post.
Proof.
  induction pre as [|x pre IH]; intros Hn; cbn.
  - rewrite Nat.eqb_refl. reflexivity.
  - destruct (Nat.eqb x o) eqn:E.
    + apply Nat.eqb_eq in E. subst. exfalso. apply Hn. left. reflexivity.
    + rewrite IH; [reflexivity | intros Hi; apply Hn; right; exact Hi].
Qed.

Lemma existsb_mid o pre post : existsb (Nat.eqb o) (pre ++ o :: post) = true.
Proof.
  apply existsb_exists. exists o. split.
  - apply in_or_app. right. left. reflexivity.
  - apply Nat.eqb_refl.
Qed.

Section Reentrant.

Variable update : Obs -> string -> Status -> Machine -> UpdResult.

(** Reaching the observer at position [length pre] after the quiet [pre]. *)
Lemma notify_reach fuel m log pre o post :
  _observers m = pre ++ o :: post -> Forall (quiet update) pre ->
  notify_from update (List.length pre + S fuel) 0 m log =
  match update o (machine_id m) (_status m) m with
  | UOk m' => notify_from update fuel (S (List.length pre)) m'
                (log ++ map (deliv m) pre ++ [deliv m o])
  | URaise m' => Raised m' (log ++ map (deliv m) pre ++ [deliv m o])
  end.
Proof.
  intros Ho Hq.
  rewrite (notify_skip update (S fuel) 0 m log pre (o :: post)); [|rewrite Ho; reflexivity | exact Hq].
  cbn [Nat.add notify_from]. rewrite Ho.
  destruct (skipn_cons_nth (pre ++ o :: post) (List.length pre) o post) as [Hn _];
    [apply skipn_length_app|].
  rewrite Hn. rewrite <- app_assoc. reflexivity.
Qed.



End Reentrant.

Lemma dashboard_quiet o : quiet ProductionDashboard_update o.
Proof. intros mid st mm. reflexivity. Qed.

Lemma dashboard_all_quiet l : Forall (quiet ProductionDashboard_update) l.
Proof. apply Forall_forall. intros o _. apply dashboard_quiet. Qed.

Lemma deliveries_to_map o m l :
  deliveries_to o (map (deliv m) l) = count_occ Nat.eq_dec l o.
Proof. unfold deliveries_to. rewrite map_d_obs_deliv. reflexivity. Qed.

(** C2 (counterexample): with observers [1; 2] and observer [1] raising,
    [set_status RUNNING] raises after notifying [1] only: observer [2]
    is never notified. *)
Lemma C2_raise_stops_fanout :
  set_status (faulty_update 1) 5 RUNNING (cnc [1; 2]) [] =
  Raised (mkMachine "CNC-001" RUNNING [1; 2])
         [mkDelivery 1 "CNC-001" RUNNING (mkMachine "CNC-001" RUNNING [1; 2])].
Proof. reflexivity. Qed.

(** C2 (amended): [notify_observers] has no error handling.  When the
    observer at position [length pre] raises and those before it do not,
    [set_status] raises: the new status is already committed, the observers
    before it and the raising one have been notified, and no later observer
    is. *)
Theorem C2_raise_aborts_broadcast update fuel s m pre o post :
  _observers m = pre ++ o :: post ->
  Forall (quiet update) pre -> raises update o -> List.length pre < fuel ->
  set_status update fuel s m [] =
    Raised (with_status m s) (map (deliv (with_status m s)) (pre ++ [o])).
Proof.
  intros Ho Hq Hr Hf.
  unfold set_status, notify_observers.
  replace fuel with (List.length pre + S (fuel - S (List.length pre))) by lia.
  rewrite (notify_reach update _ (with_status m s) [] pre o post Ho Hq), Hr.
  rewrite map_app. reflexivity.
Qed.

Lemma C2_raise_aborts_broadcast_witness :
  set_status (faulty_update 2) 5 RUNNING (cnc [1; 2; 3]) [] =
  Raised (with_status (cnc [1; 2; 3]) RUNNING)
         (map (deliv (with_status (cnc [1; 2; 3]) RUNNING)) ([1] ++ [2])).
Proof.
  apply (C2_raise_aborts_broadcast (faulty_update 2) 5 RUNNING (cnc [1; 2; 3]) [1] 2 [3]).
  - reflexivity.
  - repeat constructor.
  - intros mid st mm. reflexivity.
  - cbn. lia.
Defined.

(** C3 (counterexample): registering observer [1] a second time returns
    [true] and leaves two entries. *)
Lemma C3_register_duplicate_accepted :
  register_observer (AObserver 1) (snd (register_observer (AObserver 1) (cnc []))) =
  (true, cnc [1; 1]).
Proof. reflexivity. Qed.

(** C3 (amended): [register_observer] has no duplicate check: for any
    [Observer], already registered or not, it returns [true] and appends it,
    adding one occurrence; only a non-[Observer] argument returns [false],
    with the machine unchanged. *)
Theorem C3_register_appends (m : Machine) (o : Obs) :
  register_observer (AObserver o) m = (true, with_observers m (_observers m ++ [o])) /\
  count_occ Nat.eq_dec (_observers (snd (register_observer (AObserver o) m))) o =
    S (count_occ Nat.eq_dec (_observers m) o) /\
  register_observer AOther m = (false, m).
Proof.
  split; [reflexivity | split; [|reflexivity]].
  cbn [register_observer snd with_observers _observers].
  rewrite count_occ_app. cbn [count_occ]. unfold Obs in *.
  destruct (Nat.eq_dec o o) as [_|C]; [lia | contradiction].
Qed.




(** C7: [set_status s] first commits [s] (every observer sees the machine
    with status [s]), then calls [update(machine_id, s)] on every registered
    observer in registration order, whatever the previous status; two
    consecutive calls with the same status give every registered observer
    two deliveries per registration. *)
Theorem C7_set_status_commits_then_broadcasts update fuel s m :
  Forall (quiet update) (_observers m) -> List.length (_observers m) < fuel ->
  set_status update fuel s m [] =
    Done (with_status m s)
         (map (fun o => mkDelivery o (machine_id m) s (with_status m s)) (_observers m)) /\
  (forall o, deliveries_to o (outcome_log (set_status_twice update fuel s s m)) =
             2 * count_occ Nat.eq_dec (_observers m) o).
Proof.
  intros Hq Hf.
  assert (H1 : set_status update fuel s m [] =
               Done (with_status m s) (map (deliv (with_status m s)) (_observers m))).
  { unfold set_status, notify_observers.
    exact (notify_all_quiet update fuel (with_status m s) [] Hq Hf). }
  split; [exact H1|].
  intros o. unfold set_status_twice. rewrite H1.
  unfold set_status, notify_observers.
  rewrite (notify_all_quiet update fuel (with_status (with_status m s) s) _ Hq Hf).
  cbn [outcome_log]. unfold deliveries_to.
  rewrite map_app, !map_d_obs_deliv. cbn [_observers with_status].
  unfold Obs in *. rewrite count_occ_app. lia.
Qed.

Lemma C7_set_status_commits_then_broadcasts_witness :
  deliveries_to 1
    (outcome_log (set_status_twice ProductionDashboard_update 3 RUNNING RUNNING
                    (with_status (cnc [1; 2]) RUNNING))) = 2 * 1.
Proof.
  exact (proj2 (C7_set_status_commits_then_broadcasts ProductionDashboard_update 3 RUNNING
                  (with_status (cnc [1; 2]) RUNNING) (dashboard_all_quiet _)
                  ltac:(cbn; lia)) 1).
Defined.

(** C9: observers are not deduplicated: registering the same observer
    twice gives it two more deliveries on the next broadcast. *)
Theorem C9_register_twice_two_deliveries update fuel s m o :
  Forall (quiet update) (_observers m) -> quiet update o ->
  List.length (_observers m) + 2 < fuel ->
  deliveries_to o (outcome_log (set_status update fuel s
      (snd (register_observer (AObserver o) (snd (register_observer (AObserver o) m)))) [])) =
  count_occ Nat.eq_dec (_observers m) o + 2.
Proof.
  intros Hq Ho Hf.
  cbn [register_observer snd]. unfold set_status, notify_observers.
  rewrite notify_all_quiet.
  - cbn [outcome_log app]. rewrite deliveries_to_map.
    cbn [_observers with_status with_observers]. unfold Obs in *.
    rewrite <- app_assoc, count_occ_app. cbn [app count_occ].
    destruct (Nat.eq_dec o o) as [_|C]; [lia | contradiction].
  - cbn [_observers with_status with_observers]. rewrite <- app_assoc.
    apply Forall_app. split; [exact Hq | repeat constructor; exact Ho].
  - cbn [_observers with_status with_observers]. rewrite !length_app. cbn. lia.
Qed.

Lemma C9_register_twice_two_deliveries_witness :
  deliveries_to 7 (outcome_log (set_status MaintenanceEngineer_update 5 FAULT
      (snd (register_observer (AObserver 7) (snd (register_observer (AObserver 7) (cnc [1; 2]))))) [])) =
  count_occ Nat.eq_dec [1; 2] 7 + 2.
Proof.
  apply (C9_register_twice_two_deliveries MaintenanceEngineer_update 5 FAULT (cnc [1; 2]) 7).
  - repeat constructor.
  - intros mid st mm. reflexivity.
  - cbn. lia.
Defined.

End ObserverFacts.

(* ================================================================= *)
(** ** Further facts about the observer registry *)

Module RegistryFacts.

Import ObserverPattern ObserverFacts.
Close Scope string_scope.
Open Scope list_scope.

Lemma not_in_existsb o l : ~ In o l -> existsb (Nat.eqb o) l = false.
Proof.
  induction l as [|x l IH]; intros Hn; cbn; [reflexivity|].
  destruct (Nat.eqb o x) eqn:E.
  - apply Nat.eqb_eq in E. subst. exfalso. apply Hn. left. reflexivity.
  - apply IH. intros Hi. apply Hn. right. exact Hi.
Qed.

Lemma in_existsb o l : In o l -> existsb (Nat.eqb o) l = true.
Proof.
  intros Hi. apply existsb_exists. exists o. split; [exact Hi | apply Nat.eqb_refl].
Qed.

Lemma list_remove_not_in o l : ~ In o l -> list_remove o l = l.
Proof.
  induction l as [|x l IH]; intros Hn; cbn; [reflexivity|].
  destruct (Nat.eqb x o) eqn:E.
  - apply Nat.eqb_eq in E. subst. exfalso. apply Hn. left. reflexivity.
  - rewrite IH; [reflexivity | intros Hi; apply Hn; right; exact Hi].
Qed.

Lemma list_remove_app_in o l r : In o l -> list_remove o (l ++ r) = list_remove o l ++ r.
Proof.
  induction l as [|x l IH]; intros Hi; [destruct Hi|]. cbn.
  destruct (Nat.eqb x o) eqn:E; [reflexivity|].
  rewrite IH; [reflexivity|].
  destruct Hi as [->|Hi]; [rewrite Nat.eqb_refl in E; discriminate | exact Hi].
Qed.

Lemma count_list_remove_other p o (l : list Obs) :
  p <> o -> count_occ Nat.eq_dec (list_remove o l) p = count_occ Nat.eq_dec l p.
Proof.
  unfold Obs in *. intros Hpo.
  induction l as [|x l IH]; cbn; [reflexivity|].
  destruct (Nat.eqb x o) eqn:E.
  - apply Nat.eqb_eq in E. subst.
    destruct (Nat.eq_dec o p) as [C|_]; [congruence | reflexivity].
  - cbn. rewrite IH. reflexivity.
Qed.

Lemma count_list_remove_self o (l : list Obs) :
  In o l -> count_occ Nat.eq_dec (list_remove o l) o = pred (count_occ Nat.eq_dec l o).
Proof.
  unfold Obs in *.
  induction l as [|x l IH]; intros Hi; [destruct Hi|]. cbn.
  destruct (Nat.eqb x o) eqn:E.
  - apply Nat.eqb_eq in E. subst.
    destruct (Nat.eq_dec o o) as [_|C]; [reflexivity | contradiction].
  - cbn. destruct (Nat.eq_dec x o) as [C|_].
    + subst. rewrite Nat.eqb_refl in E. discriminate.
    + apply IH. destruct Hi as [->|Hi]; [rewrite Nat.eqb_refl in E; discriminate | exact Hi].
Qed.

Lemma Forall_list_remove (P : Obs -> Prop) o l : Forall P l -> Forall P (list_remove o l).
Proof.
  induction 1 as [|x l Hx Hl IH]; cbn; [constructor|].
  destruct (Nat.eqb x o); [exact Hl | constructor; assumption].
Qed.

Lemma with_observers_self m : with_observers m (_observers m) = m.
Proof. destruct m. reflexivity. Qed.

(** [remove_observer] removes only the first registration of an observer:
    with [o] first registered at position [length pre], the result is
    [pre ++ post] and [true]; an unregistered observer or a non-[Observer]
    argument gives [false] and an unchanged machine. *)
Theorem remove_observer_first_occurrence o m :
  (forall pre post, _observers m = pre ++ o :: post -> ~ In o pre ->
     remove_observer (AObserver o) m = (true, with_observers m (pre ++ post))) /\
  (~ In o (_observers m) -> remove_observer (AObserver o) m = (false, m)) /\
  remove_observer AOther m = (false, m).
Proof.
  split; [|split; [|reflexivity]].
  - intros pre post Ho Hn. cbn. rewrite Ho, existsb_mid, list_remove_first by exact Hn.
    reflexivity.
  - intros Hn. cbn. rewrite (not_in_existsb _ _ Hn). reflexivity.
Qed.

Lemma remove_observer_first_occurrence_witness :
  remove_observer (AObserver 2) (cnc [1; 2; 3; 2]) =
    (true, with_observers (cnc [1; 2; 3; 2]) ([1] ++ [3; 2])).
Proof.
  apply (proj1 (remove_observer_first_occurrence 2 (cnc [1; 2; 3; 2])) [1] [3; 2]).
  - reflexivity.
  - cbn. lia.
Defined.

(** [remove_observer] lowers the number of registrations of the removed
    observer by one and leaves every other observer's count unchanged. *)
Theorem remove_observer_counts o p m :
  count_occ Nat.eq_dec (_observers (snd (remove_observer (AObserver o) m))) o =
    pred (count_occ Nat.eq_dec (_observers m) o) /\
  (p <> o ->
   count_occ Nat.eq_dec (_observers (snd (remove_observer (AObserver o) m))) p =
     count_occ Nat.eq_dec (_observers m) p).
Proof.
  cbn [remove_observer].
  destruct (existsb (Nat.eqb o) (_observers m)) eqn:E.
  - cbn [snd with_observers _observers]. split.
    + apply count_list_remove_self.
      apply existsb_exists in E. destruct E as [x [Hx Hxe]].
      apply Nat.eqb_eq in Hxe. subst. exact Hx.
    + apply count_list_remove_other.
  - cbn [snd]. split; [|reflexivity].
    assert (Hn : ~ In o (_observers m)).
    { intros Hi. rewrite (in_existsb _ _ Hi) in E. discriminate. }
    rewrite (proj1 (count_occ_not_In Nat.eq_dec _ o) Hn). reflexivity.
Qed.

Lemma remove_observer_counts_witness :
  count_occ Nat.eq_dec (_observers (snd (remove_observer (AObserver 2) (cnc [1; 2; 1])))) 1 =
    count_occ Nat.eq_dec [1; 2; 1] 1.
Proof.
  apply (proj2 (remove_observer_counts 2 1 (cnc [1; 2; 1]))). lia.
Defined.

(** Registering and then removing an observer restores the machine when it
    was not registered; when it was, the pair moves its registration to the
    end of the list. *)
Theorem register_remove_roundtrip o m :
  (~ In o (_observers m) ->
   remove_observer (AObserver o) (snd (register_observer (AObserver o) m)) = (true, m)) /\
  (In o (_observers m) ->
   remove_observer (AObserver o) (snd (register_observer (AObserver o) m)) =
     (true, with_observers m (list_remove o (_observers m) ++ [o]))).
Proof.
  split; intros H; destruct m as [mid st os]; cbn in *;
    rewrite existsb_app; cbn [existsb]; rewrite Nat.eqb_refl, orb_true_r.
  - rewrite (list_remove_first o os [] H), app_nil_r. reflexivity.
  - rewrite (list_remove_app_in _ _ _ H). reflexivity.
Qed.

Lemma register_remove_roundtrip_witness :
  remove_observer (AObserver 1) (snd (register_observer (AObserver 1) (cnc [1; 2]))) =
    (true, with_observers (cnc [1; 2]) (list_remove 1 [1; 2] ++ [1])).
Proof.
  apply (proj2 (register_remove_roundtrip 1 (cnc [1; 2]))). cbn. left. reflexivity.
Defined.

(** [Observer.unsubscribe] and [Observer.subscribe] discard the result of
    the registry call: on a machine, [unsubscribe] returns [True] whatever
    the registry holds, also when [remove_observer] itself returns [False]
    (the observer is not registered; the machine is then unchanged), and
    [subscribe] returns [True] also for an observer already registered,
    adding another registration. *)
Theorem subscribe_unsubscribe_report_success self m :
  fst (unsubscribe self (TObservable m)) = true /\
  (~ In self (_observers m) ->
     fst (remove_observer (AObserver self) m) = false /\
     unsubscribe self (TObservable m) = (true, TObservable m)) /\
  (In self (_observers m) ->
     fst (subscribe self (TObservable m)) = true /\
     count_occ Nat.eq_dec (target_observers (snd (subscribe self (TObservable m)))) self =
       S (count_occ Nat.eq_dec (_observers m) self) /\
     2 <= count_occ Nat.eq_dec (target_observers (snd (subscribe self (TObservable m)))) self).
Proof.
  split; [reflexivity | split].
  - intros Hn. cbn. rewrite (not_in_existsb _ _ Hn). split; reflexivity.
  - intros Hi.
    assert (Hc : count_occ Nat.eq_dec (target_observers (snd (subscribe self (TObservable m)))) self =
                 S (count_occ Nat.eq_dec (_observers m) self)).
    { cbn [subscribe snd target_observers register_observer with_observers _observers].
      unfold Obs in *. rewrite count_occ_app. cbn [count_occ].
      destruct (Nat.eq_dec self self) as [_|C]; [lia | contradiction]. }
    split; [reflexivity | split; [exact Hc|]].
    rewrite Hc. apply (count_occ_In Nat.eq_dec) in Hi. lia.
Qed.

Lemma subscribe_unsubscribe_report_success_witness :
  fst (remove_observer (AObserver 5) (cnc [1; 2])) = false /\
  unsubscribe 5 (TObservable (cnc [1; 2])) = (true, TObservable (cnc [1; 2])).
Proof.
  apply (proj1 (proj2 (subscribe_unsubscribe_report_success 5 (cnc [1; 2])))). cbn. lia.
Defined.

(** An observer registered twice and then removed once keeps one
    registration: the next broadcast (quiet observers) still delivers to it
    one more time than before the three calls. *)
Theorem register_twice_remove_once_delivers update fuel s m o :
  Forall (quiet update) (_observers m) -> quiet update o ->
  List.length (_observers m) + 2 < fuel ->
  deliveries_to o (outcome_log (set_status update fuel s
    (snd (remove_observer (AObserver o)
      (snd (register_observer (AObserver o) (snd (register_observer (AObserver o) m))))))
    [])) = count_occ Nat.eq_dec (_observers m) o + 1.
Proof.
  intros Hq Ho Hf.
  set (m2 := snd (register_observer (AObserver o) (snd (register_observer (AObserver o) m)))).
  assert (Hobs : _observers m2 = _observers m ++ [o; o]).
  { unfold m2. cbn. rewrite <- app_assoc. reflexivity. }
  assert (Hq2 : Forall (quiet update) (_observers m2)).
  { rewrite Hobs. apply Forall_app. split; [exact Hq | repeat constructor; exact Ho]. }
  assert (Hin : In o (_observers m2)).
  { rewrite Hobs. apply in_or_app. right. left. reflexivity. }
  cbn [remove_observer]. rewrite (in_existsb _ _ Hin). cbn [snd].
  unfold set_status, notify_observers.
  rewrite notify_all_quiet.
  - cbn [outcome_log app]. rewrite deliveries_to_map.
    cbn [_observers with_status with_observers].
    rewrite (count_list_remove_self _ _ Hin), Hobs.
    unfold Obs in *. rewrite count_occ_app. cbn [count_occ].
    destruct (Nat.eq_dec o o) as [_|C]; [lia | contradiction].
  - cbn [_observers with_status with_observers]. apply Forall_list_remove. exact Hq2.
  - cbn [_observers with_status with_observers].
    assert (Hl : List.length (list_remove o (_observers m2)) <= List.length (_observers m2)).
    { clear. induction (_observers m2) as [|x l IH]; cbn; [lia|].
      destruct (Nat.eqb x o); cbn; lia. }
    rewrite Hobs in Hl |- *. rewrite length_app in Hl. cbn in Hl. lia.
Qed.

Lemma register_twice_remove_once_delivers_witness :
  deliveries_to 7 (outcome_log (set_status ProductionDashboard_update 6 RUNNING
    (snd (remove_observer (AObserver 7)
      (snd (register_observer (AObserver 7) (snd (register_observer (AObserver 7) (cnc [1; 2])))))))
    [])) = count_occ Nat.eq_dec [1; 2] 7 + 1.
Proof.
  apply (register_twice_remove_once_delivers ProductionDashboard_update 6 RUNNING (cnc [1; 2]) 7).
  - apply dashboard_all_quiet.
  - apply dashboard_quiet.
  - cbn. lia.
Defined.

Lemma concrete_quiet kind o : quiet (concrete_update kind) o.
Proof. intros mid st mm. unfold concrete_update. destruct (kind o); reflexivity. Qed.

Lemma flat_map_deliv (f : Delivery -> list Line) m l :
  flat_map f (map (deliv m) l) = flat_map (fun o => f (deliv m o)) l.
Proof. induction l as [|x l IH]; cbn; [reflexivity | rewrite IH; reflexivity]. Qed.

Lemma alerts_flat_map (kind : Obs -> ObserverKind) mid s (l : list Obs) :
  List.length (filter is_alert (flat_map (fun o => update_prints (kind o) mid s) l)) =
  if status_eqb s FAULT then List.length (filter (fun o => is_engineer (kind o)) l) else 0.
Proof.
  induction l as [|x l IH]; cbn [flat_map filter].
  - destruct (status_eqb s FAULT); reflexivity.
  - rewrite filter_app, length_app, IH.
    destruct (kind x), s; cbn; reflexivity.
Qed.

(** What a broadcast to the concrete observers prints: [set_status]'s line,
    then, in registration order, one line per [ProductionDashboard]
    registration and, only when the new status is [FAULT], one alert per
    [MaintenanceEngineer] registration. *)
Theorem set_status_output_lines kind fuel s m :
  List.length (_observers m) < fuel ->
  set_status_output kind fuel s m =
    SystemLine (machine_id m) s ::
      flat_map (fun o => update_prints (kind o) (machine_id m) s) (_observers m) /\
  List.length (filter is_alert (set_status_output kind fuel s m)) =
    if status_eqb s FAULT
    then List.length (filter (fun o => is_engineer (kind o)) (_observers m)) else 0.
Proof.
  intros Hf.
  assert (H1 : set_status_output kind fuel s m =
    SystemLine (machine_id m) s ::
      flat_map (fun o => update_prints (kind o) (machine_id m) s) (_observers m)).
  { unfold set_status_output, set_status, notify_observers.
    rewrite (notify_all_quiet (concrete_update kind) fuel (with_status m s) []).
    - cbn [outcome_log app]. rewrite flat_map_deliv. reflexivity.
    - apply Forall_forall. intros o _. apply concrete_quiet.
    - exact Hf. }
  split; [exact H1|].
  rewrite H1. cbn [filter is_alert]. apply alerts_flat_map.
Qed.

Lemma set_status_output_lines_witness :
  set_status_output (fun o => if Nat.eqb o 1 then MaintenanceEngineer else ProductionDashboard)
    3 RUNNING (cnc [1; 2]) =
  SystemLine "CNC-001"%string RUNNING ::
    flat_map (fun o => update_prints
      ((fun o => if Nat.eqb o 1 then MaintenanceEngineer else ProductionDashboard) o)
      "CNC-001"%string RUNNING) [1; 2].
Proof.
  exact (proj1 (set_status_output_lines
    (fun o => if Nat.eqb o 1 then MaintenanceEngineer else ProductionDashboard)
    3 RUNNING (cnc [1; 2]) ltac:(cbn; lia))).
Defined.

End RegistryFacts.


(* ================================================================= *)
(** ** Further facts about [report_production] *)

Module ReportFacts.

Import Decorator DecoratorFacts.
Open Scope list_scope.

(** Past the guard (an integer [user_role] keyword above [OPERATOR]), the
    outcome of [report_production] is decided by Python's argument binding:
    when the call binds to [(order_id, quantity, user_role)], one report and
    one ERP synchronisation for that [order_id] are printed and the
    completed record is returned; otherwise [TypeError] is raised and
    nothing is printed. *)
Theorem report_production_admitted args kwargs log z :
  lookup "user_role" kwargs = Some (PInt z) -> (role_val OPERATOR < z)%Z ->
  fcall report_production args kwargs log =
    match (if known_kwargs kwargs then bind_params report_params args kwargs else None) with
    | Some [a; b; _] => (inr (completed a), log ++ [EvReport a b; EvErpSync a; EvErpTime])
    | _ => (inl TypeError, log)
    end.
Proof.
  intros Hl Hz. unfold report_production, role.
  rewrite (require_permission_int z (role_val OPERATOR)
             (sync_to_erp report_production_body) args kwargs log Hl).
  cbn [role_val] in Hz. apply Z.leb_gt in Hz. cbn [role_val]. rewrite Hz.
  cbn [fcall sync_to_erp]. unfold report_production_body. cbn [fcall].
  destruct (known_kwargs kwargs); [|reflexivity].
  destruct (bind_params report_params args kwargs) as [[|a [|b [|c [|d l]]]]|];
    try reflexivity.
  cbn. rewrite <- !app_assoc. reflexivity.
Qed.

Lemma report_production_admitted_witness :
  fcall report_production [PStr "ORD-002"; PInt 500; PInt 1] [("user_role", role ADMIN)] [] =
    (inl TypeError, []).
Proof.
  exact (report_production_admitted [PStr "ORD-002"; PInt 500; PInt 1]
           [("user_role", role ADMIN)] [] 3 eq_refl ltac:(cbn; lia)).
Defined.

(** Whatever the arguments, one call of [report_production] prints at most
    one report, prints exactly as many ERP synchronisations as reports, and
    only synchronises an order id it has just reported. *)
Theorem report_production_sync_follows_report args kwargs :
  let ev := snd (fcall report_production args kwargs []) in
  sync_calls ev = terminal_runs ev /\ terminal_runs ev <= 1 /\
  (forall x, In (EvErpSync x) ev -> exists q, In (EvReport x q) ev).
Proof.
  cbv zeta.
  destruct (report_production_events args kwargs)
    as [E | [[v E] | [z [a [b [_ [_ E]]]]]]]; rewrite E.
  - split; [reflexivity | split; [cbn; lia | intros x []]].
  - split; [reflexivity | split; [cbn; lia | intros x [H|[]]; discriminate]].
  - split; [reflexivity | split; [cbn; lia|]].
    intros x [H|[H|[H|[]]]]; try discriminate.
    injection H as ->. exists b. left. reflexivity.
Qed.

Lemma report_production_sync_follows_report_witness :
  exists q, In (EvReport (PStr "ORD-002") q)
    (snd (fcall report_production [PStr "ORD-002"; PInt 500] [("user_role", role ADMIN)] [])).
Proof.
  apply (proj2 (proj2 (report_production_sync_follows_report
                         [PStr "ORD-002"; PInt 500] [("user_role", role ADMIN)]))).
  cbn. right. left. reflexivity.
Defined.

Lemma lookup_perm k (l l' : Kwargs) :
  Permutation l l' -> NoDup (map fst l) -> lookup k l = lookup k l'.
Proof.
  intros Hp. induction Hp as [|[k1 v1] l l' Hp IH|[k1 v1] [k2 v2] l|l l' l'' Hp1 IH1 Hp2 IH2];
    intros Hnd.
  - reflexivity.
  - cbn. inversion Hnd; subst. rewrite IH by assumption. reflexivity.
  - cbn in *. inversion Hnd as [|? ? Hn1 Hnd']; subst.
    destruct (String.eqb k k2) eqn:E2, (String.eqb k k1) eqn:E1; try reflexivity.
    apply String.eqb_eq in E1, E2. subst. exfalso. apply Hn1. left. reflexivity.
  - rewrite IH1 by exact Hnd. apply IH2.
    exact (Permutation_NoDup (Permutation_map fst Hp1) Hnd).
Qed.

Lemma known_kwargs_perm (l l' : Kwargs) : Permutation l l' -> known_kwargs l = known_kwargs l'.
Proof.
  unfold known_kwargs.
  induction 1 as [| x l l' _ IH | x y l | l l' l'' _ IH1 _ IH2]; cbn [forallb].
  - reflexivity.
  - rewrite IH. reflexivity.
  - rewrite !andb_assoc, (andb_comm (existsb _ _ )). reflexivity.
  - congruence.
Qed.

Lemma bind_params_ext ps args (kw kw' : Kwargs) :
  (forall k, lookup k kw = lookup k kw') ->
  bind_params ps args kw = bind_params ps args kw'.
Proof.
  intros H. revert args. induction ps as [|p ps IH]; intros args; cbn; [reflexivity|].
  rewrite H. destruct args; rewrite ?IH; reflexivity.
Qed.

(** The order of keyword arguments never matters (keywords of a Python call
    are distinct); and [order_id] and [quantity] may be passed
    positionally, by keyword, or [order_id] positionally and [quantity] by
    keyword: for every role the call has the same result and output. *)
Theorem report_production_keyword_positional :
  (forall args (kw kw' : Kwargs) log,
     NoDup (map fst kw) -> Permutation kw kw' ->
     fcall report_production args kw log = fcall report_production args kw' log) /\
  (forall r a b log,
     fcall report_production [a; b] [("user_role", role r)] log =
       fcall report_production [a] [("quantity", b); ("user_role", role r)] log /\
     fcall report_production [a; b] [("user_role", role r)] log =
       fcall report_production [] [("order_id", a); ("quantity", b); ("user_role", role r)] log).
Proof.
  split.
  - intros args kw kw' log Hnd Hp.
    assert (Hl : forall k, lookup k kw = lookup k kw') by (intros k; apply lookup_perm; assumption).
    cbn [fcall report_production require_permission sync_to_erp report_production_body].
    unfold dict_get. rewrite (Hl "user_role"), (known_kwargs_perm _ _ Hp),
      (bind_params_ext report_params args kw kw' Hl).
    reflexivity.
  - intros r a b log. destruct r; split; reflexivity.
Qed.

Lemma report_production_keyword_positional_witness :
  fcall report_production [] [("order_id", PStr "ORD-002"); ("quantity", PInt 500);
                              ("user_role", role ADMIN)] [] =
  fcall report_production [] (rev [("order_id", PStr "ORD-002"); ("quantity", PInt 500);
                                   ("user_role", role ADMIN)]) [].
Proof.
  apply (proj1 report_production_keyword_positional).
  - cbn. constructor; [intros [H|[H|[]]]; discriminate|].
    constructor; [intros [H|[]]; discriminate|].
    constructor; [intros []|constructor].
  - apply Permutation_rev.
Defined.

End ReportFacts.
